(** * The agent tools of [backend-langchain/tools.py]

    A shallow embedding of the six tools that the module binds to the
    agent: [get_db_info], [get_machine_data], [get_ambient], [get_logs],
    [query_documentation] and [visualize].

    Python values are a small tagged union, a [dict] is an association
    list (Python dicts keep insertion order, and the order of [params]
    is the order of the query string), and the effects of a tool (the
    HTTP GET of [requests.get], [print], a raised exception) are threaded
    through a reader/state/error monad: the backend is read, the trace of
    events is the state. *)

From Stdlib Require Import String List ZArith Bool Lia.
Import ListNotations.
Open Scope string_scope.
Open Scope Z_scope.

(** ** Python values and dictionaries *)

Inductive PyVal : Type :=
| VNone
| VStr (s : string)
| VInt (z : Z).

Definition is_str (v : PyVal) : bool :=
  match v with VStr _ => true | _ => false end.

Definition Dict : Type := list (string * PyVal).

Fixpoint lookup (k : string) (d : Dict) : option PyVal :=
  match d with
  | [] => None
  | (k', v) :: d' => if String.eqb k k' then Some v else lookup k d'
  end.

Definition keys (d : Dict) : list string := map fst d.

(** ** Exceptions *)

(** What Python's argument binding rejects a call for. *)
Inductive ArgError : Type :=
| Missing (param : string)
| Unexpected (keyword : string)
| Multiple (param : string)
| TooManyPositional.

Inductive PyExc : Type :=
| TypeError (e : ArgError)
| ValidationError (field : string)
| RequestException (msg : string).

(** ** The world of a tool: the backend and the trace of events *)

(** [requests.get(url, params=...)]: [get_logs] passes no [params]. *)
Record Request : Type := mkRequest
  { req_url : string;
    req_params : option Dict }.

(** Of the response only [.text] is read; the status code is carried to
    show that the tools never look at it. *)
Record Response : Type := mkResponse
  { status_code : Z;
    text : string }.

(** The backend's state, as far as a GET can observe it: what each
    request is answered with, a response or a raised exception. *)
Definition Backend : Type := Request -> PyExc + Response.

Inductive Event : Type :=
| EvGet (r : Request)
| EvPrint (s : string).

Definition Trace : Type := list Event.

Fixpoint requests_of (tr : Trace) : list Request :=
  match tr with
  | [] => []
  | EvGet r :: tr' => r :: requests_of tr'
  | EvPrint _ :: tr' => requests_of tr'
  end.

(** ** The monad of tool bodies *)

Inductive Res (A : Type) : Type :=
| Ret (a : A)
| Raise (e : PyExc).
Arguments Ret {A} a.
Arguments Raise {A} e.

Definition M (A : Type) : Type := Backend -> Trace -> Res A * Trace.

Definition ret {A} (a : A) : M A := fun _ tr => (Ret a, tr).

Definition raise {A} (e : PyExc) : M A := fun _ tr => (Raise e, tr).

Definition bind {A B} (c : M A) (k : A -> M B) : M B :=
  fun b tr =>
    match c b tr with
    | (Ret a, tr') => k a b tr'
    | (Raise e, tr') => (Raise e, tr')
    end.

(** A call that returns or raises without touching the world. *)
Definition lift {A} (r : PyExc + A) : M A :=
  fun _ tr =>
    match r with
    | inr a => (Ret a, tr)
    | inl e => (Raise e, tr)
    end.

Declare Scope tool_scope.
Delimit Scope tool_scope with tool.
Notation "x <- c ;; k" := (bind c (fun x => k))
  (at level 61, c at next level, right associativity) : tool_scope.
Notation "c ;; k" := (bind c (fun _ => k))
  (at level 61, right associativity) : tool_scope.
Open Scope tool_scope.

(** [requests.get]: the call is recorded, then the backend answers. *)
Definition requests_get (url : string) (params : option Dict) : M Response :=
  fun b tr =>
    let r := mkRequest url params in
    match b r with
    | inr resp => (Ret resp, (tr ++ [EvGet r])%list)
    | inl e => (Raise e, (tr ++ [EvGet r])%list)
    end.

Definition print (s : string) : M unit :=
  fun _ tr => (Ret tt, (tr ++ [EvPrint s])%list).

Definition result {A} (c : M A) (b : Backend) (tr : Trace) : Res A :=
  fst (c b tr).

Definition trace {A} (c : M A) (b : Backend) (tr : Trace) : Trace :=
  snd (c b tr).

(** ** Signatures and the binding of arguments

    A parameter is its name and its default, if the [def] gives one.
    The annotations ([str | None], [int]) are not checked by Python and
    are not part of the model: every parameter takes any value. *)

Record Param : Type := mkParam
  { p_name : string;
    p_default : option PyVal }.

Definition required (n : string) : Param := mkParam n None.
Definition optional (n : string) (d : Z) : Param := mkParam n (Some (VInt d)).

Definition is_param (sig : list Param) (k : string) : bool :=
  existsb (fun p => String.eqb k (p_name p)) sig.

(** The position of the parameter named [k] in a signature. *)
Fixpoint index_of (k : string) (sig : list Param) : nat :=
  match sig with
  | [] => O
  | p :: sig' => if String.eqb k (p_name p) then O else S (index_of k sig')
  end.

(** Parameters are filled from the positional arguments first, then from
    the keywords, then from the defaults; more positional arguments than
    parameters, or a parameter left without a value, end the call.
    [Missing] names the first such parameter (Python's message lists all
    of them). A parameter filled twice is an error too; [bind_args] has
    reported it before, by the keyword. *)
Fixpoint bind_params (sig : list Param) (pos : list PyVal) (kw : Dict)
  : ArgError + list PyVal :=
  match sig with
  | [] =>
      match pos with
      | [] => inr []
      | _ :: _ => inl TooManyPositional
      end
  | p :: sig' =>
      match pos with
      | v :: pos' =>
          match lookup (p_name p) kw with
          | Some _ => inl (Multiple (p_name p))
          | None =>
              match bind_params sig' pos' kw with
              | inr vs => inr (v :: vs)
              | inl e => inl e
              end
          end
      | [] =>
          match lookup (p_name p) kw, p_default p with
          | Some v, _ | None, Some v =>
              match bind_params sig' [] kw with
              | inr vs => inr (v :: vs)
              | inl e => inl e
              end
          | None, None => inl (Missing (p_name p))
          end
      end
  end.

(** Python looks at the keywords first, in the order of the call: the
    first one that names no parameter, or names a parameter that one of
    the [filled] positional arguments already reached, ends the call. *)
Fixpoint keyword_error (sig : list Param) (filled : nat) (kw : Dict)
  : option ArgError :=
  match kw with
  | [] => None
  | (k, _) :: kw' =>
      if is_param sig k then
        if Nat.ltb (index_of k sig) filled then Some (Multiple k)
        else keyword_error sig filled kw'
      else Some (Unexpected k)
  end.

Definition bind_args (sig : list Param) (pos : list PyVal) (kw : Dict)
  : ArgError + list PyVal :=
  match keyword_error sig (length pos) kw with
  | Some e => inl e
  | None => bind_params sig pos kw
  end.

(** ** The signatures of the six tools *)

Definition get_db_info_sig : list Param := [].

Definition get_machine_data_sig : list Param :=
  [ required "from_timestamp";
    required "to_timestamp";
    optional "min_comb_op_tmp_1" 0;
    optional "max_comb_op_tmp_1" 200;
    optional "min_comb_op_tmp_2" 0;
    optional "max_comb_op_tmp_2" 200;
    optional "min_comb_op_tmp_3" 0;
    optional "max_comb_op_tmp_3" 200;
    optional "min_material_pressure" 0;
    optional "max_material_pressure" 1000;
    optional "min_material_temperature" 0;
    optional "max_material_temperature" 200;
    optional "min_motor_rpm" 0;
    optional "max_motor_rpm" 3000 ].

Definition get_ambient_sig : list Param :=
  [ required "from_timestamp";
    required "to_timestamp";
    optional "min_value_humidity" 0;
    optional "max_value_humidity" 100;
    optional "min_value_amb_temperature" 0;
    optional "max_value_amb_temperature" 100;
    optional "min_value_zone_1_temperature" 0;
    optional "max_value_zone_1_temperature" 100 ].

Definition get_logs_sig : list Param := [].

Definition query_documentation_sig : list Param := [ required "question" ].

Definition visualize_sig : list Param :=
  [ required "table"; required "column" ].

(** The object [AzureCognitiveSearchRetriever(...)] builds. The class
    belongs to [langchain_community]. *)
Record AzureCognitiveSearchRetriever : Type := mkRetriever
  { content_key : string;
    service_name : string;
    index_name : string;
    api_key : option string;
    top_k : Z }.

(** Its constructor validates the fields: an [api_key] that is [None] or
    the empty string is refused with a [ValidationError] (the library
    would look for a key of its own in the environment first; none is
    taken to be there). *)
Definition new_AzureCognitiveSearchRetriever
  (content_key service_name index_name : string) (api_key : option string)
  (top_k : Z) : PyExc + AzureCognitiveSearchRetriever :=
  match api_key with
  | Some key =>
      if String.eqb key "" then inl (ValidationError "api_key")
      else inr (mkRetriever content_key service_name index_name (Some key) top_k)
  | None => inl (ValidationError "api_key")
  end.

(** ** The tools *)

Section Tools.

(** [config.DATABASE_DESCR] and [config.BACKEND_URL], and the process
    environment read through [os.environ.get]. *)
Variable DATABASE_DESCR : string.
Variable BACKEND_URL : string.
Variable environ : string -> option string.

Definition get_db_info : M PyVal :=
  ret (VStr DATABASE_DESCR).

Definition get_machine_data
  (from_timestamp to_timestamp
   min_comb_op_tmp_1 max_comb_op_tmp_1
   min_comb_op_tmp_2 max_comb_op_tmp_2
   min_comb_op_tmp_3 max_comb_op_tmp_3
   min_material_pressure max_material_pressure
   min_material_temperature max_material_temperature
   min_motor_rpm max_motor_rpm : PyVal) : M PyVal :=
  results <- requests_get (BACKEND_URL ++ "/machine") (Some
    [ ("from_ts", from_timestamp);
      ("to_ts", to_timestamp);
      ("min_comb_op_tmp_1", min_comb_op_tmp_1);
      ("max_comb_op_tmp_1", max_comb_op_tmp_1);
      ("min_comb_op_tmp_2", min_comb_op_tmp_2);
      ("max_comb_op_tmp_2", max_comb_op_tmp_2);
      ("min_comb_op_tmp_3", min_comb_op_tmp_3);
      ("max_comb_op_tmp_3", max_comb_op_tmp_3);
      ("min_material_pressure", min_material_pressure);
      ("max_material_pressure", max_material_pressure);
      ("min_material_temperature", min_material_temperature);
      ("max_material_temperature", max_material_temperature);
      ("min_motor_rpm", min_motor_rpm);
      ("max_motor_rpm", max_motor_rpm) ]) ;;
  print (text results) ;;
  ret (VStr (text results)).

Definition get_ambient
  (from_timestamp to_timestamp
   min_value_humidity max_value_humidity
   min_value_amb_temperature max_value_amb_temperature
   min_value_zone_1_temperature max_value_zone_1_temperature : PyVal)
  : M PyVal :=
  results <- requests_get (BACKEND_URL ++ "/ambient") (Some
    [ ("from_ts", from_timestamp);
      ("to_ts", to_timestamp);
      ("min_value_humidity", min_value_humidity);
      ("max_value_humidity", max_value_humidity);
      ("min_value_amb_temperature", min_value_amb_temperature);
      ("max_value_amb_temperature", max_value_amb_temperature);
      ("min_value_zone_1_temperature", min_value_zone_1_temperature);
      ("max_value_zone_1_temperature", max_value_zone_1_temperature) ]) ;;
  print (text results) ;;
  ret (VStr (text results)).

Definition get_logs : M PyVal :=
  results <- requests_get (BACKEND_URL ++ "/logs") None ;;
  print (text results) ;;
  ret (VStr (text results)).

(** The retriever is built, which may raise, and never used; the five
    steps after it are [pass]. *)
Definition query_documentation (question : PyVal) : M PyVal :=
  retriever <- lift (new_AzureCognitiveSearchRetriever
                       "content"
                       "hackathon-v2-ai-search"
                       "hackathon-v2-vector-idx-2"
                       (environ "AZURE_SEARCH_KEY")
                       10) ;;
  ret VNone.

(** Four [pass] statements, then [return None]. *)
Definition visualize (table column : PyVal) : M PyVal :=
  ret VNone.

(** ** The registry: a tool called by name

    [invoke] is the call of the function that a tool wraps, with
    positional and keyword arguments: Python binds them against the
    signature (a [TypeError] when they do not fit) and runs the body. The
    [@tool] decorator of [langchain] puts a validation of the arguments by
    their annotations in front of this call; it belongs to the library and
    is not modelled. *)

Inductive Tool : Type :=
| GetDbInfo
| GetMachineData
| GetAmbient
| GetLogs
| QueryDocumentation
| Visualize.

Definition registry : list Tool :=
  [GetDbInfo; GetMachineData; GetAmbient; GetLogs; QueryDocumentation;
   Visualize].

Definition signature (t : Tool) : list Param :=
  match t with
  | GetDbInfo => get_db_info_sig
  | GetMachineData => get_machine_data_sig
  | GetAmbient => get_ambient_sig
  | GetLogs => get_logs_sig
  | QueryDocumentation => query_documentation_sig
  | Visualize => visualize_sig
  end.

(** The body of a tool on the bound arguments, in the order of the
    signature. [bind_args] returns as many values as the signature has
    parameters, so the last branch is never taken by [invoke]. *)
Definition body (t : Tool) (args : list PyVal) : M PyVal :=
  match t, args with
  | GetDbInfo, [] => get_db_info
  | GetMachineData, [a1; a2; a3; a4; a5; a6; a7; a8; a9; a10; a11; a12; a13; a14] =>
      get_machine_data a1 a2 a3 a4 a5 a6 a7 a8 a9 a10 a11 a12 a13 a14
  | GetAmbient, [a1; a2; a3; a4; a5; a6; a7; a8] =>
      get_ambient a1 a2 a3 a4 a5 a6 a7 a8
  | GetLogs, [] => get_logs
  | QueryDocumentation, [question] => query_documentation question
  | Visualize, [table; column] => visualize table column
  | _, _ => raise (TypeError TooManyPositional)
  end.

Definition invoke (t : Tool) (pos : list PyVal) (kw : Dict) : M PyVal :=
  match bind_args (signature t) pos kw with
  | inl e => raise (TypeError e)
  | inr args => body t args
  end.

End Tools.

(** ** What the specification documents

    The default bounds as the specification words them: each temperature
    of the machine 0 to 200, the material pressure 0 to 1000, the motor
    RPM 0 to 3000, and each ambient quantity 0 to 100. *)

Inductive Quantity : Type :=
| CombinerTemperature1
| CombinerTemperature2
| CombinerTemperature3
| MaterialPressure
| MaterialTemperature
| MotorRpm
| Humidity
| AmbientTemperature
| Zone1Temperature.

Definition spec_range (q : Quantity) : Z * Z :=
  match q with
  | CombinerTemperature1 | CombinerTemperature2 | CombinerTemperature3
  | MaterialTemperature => (0, 200)
  | MaterialPressure => (0, 1000)
  | MotorRpm => (0, 3000)
  | Humidity | AmbientTemperature | Zone1Temperature => (0, 100)
  end.

(** The pair of query keys that bound a quantity. *)
Definition bound_keys (q : Quantity) : string * string :=
  match q with
  | CombinerTemperature1 => ("min_comb_op_tmp_1", "max_comb_op_tmp_1")
  | CombinerTemperature2 => ("min_comb_op_tmp_2", "max_comb_op_tmp_2")
  | CombinerTemperature3 => ("min_comb_op_tmp_3", "max_comb_op_tmp_3")
  | MaterialPressure => ("min_material_pressure", "max_material_pressure")
  | MaterialTemperature =>
      ("min_material_temperature", "max_material_temperature")
  | MotorRpm => ("min_motor_rpm", "max_motor_rpm")
  | Humidity => ("min_value_humidity", "max_value_humidity")
  | AmbientTemperature =>
      ("min_value_amb_temperature", "max_value_amb_temperature")
  | Zone1Temperature =>
      ("min_value_zone_1_temperature", "max_value_zone_1_temperature")
  end.

Definition quantities (t : Tool) : list Quantity :=
  match t with
  | GetMachineData =>
      [CombinerTemperature1; CombinerTemperature2; CombinerTemperature3;
       MaterialPressure; MaterialTemperature; MotorRpm]
  | GetAmbient => [Humidity; AmbientTemperature; Zone1Temperature]
  | _ => []
  end.

(** The documented defaults of a telemetry tool, key by key. *)
Definition spec_defaults (t : Tool) : Dict :=
  flat_map
    (fun q => [ (fst (bound_keys q), VInt (fst (spec_range q)));
                (snd (bound_keys q), VInt (snd (spec_range q))) ])
    (quantities t).

(** ** One GET, then [print], then [return results.text]

    The three tools that reach the backend share their shape; [fetch] is
    that shape, and each of them is an instance of it. *)

Definition fetch (r : Request) : M PyVal :=
  fun b tr =>
    match b r with
    | inr resp =>
        (Ret (VStr (text resp)), (tr ++ [EvGet r; EvPrint (text resp)])%list)
    | inl e => (Raise e, (tr ++ [EvGet r])%list)
    end.

(** ** Reading a request and a call

    The value a request carries under a query key. *)
Definition query_value (r : Request) (k : string) : option PyVal :=
  match req_params r with
  | Some d => lookup k d
  | None => None
  end.

(** Whether a call supplies the parameter named [k]: by keyword, or by a
    positional argument that reaches it. *)
Definition supplied (sig : list Param) (pos : list PyVal) (kw : Dict)
  (k : string) : bool :=
  match lookup k kw with
  | Some _ => true
  | None => existsb (String.eqb k) (map p_name (firstn (length pos) sig))
  end.

Definition telemetry (t : Tool) : bool :=
  match t with
  | GetMachineData | GetAmbient => true
  | _ => false
  end.

(** What ends up in a parameter, by where the call supplies it. *)
Definition bound_value (p : Param) (i : nat) (pos : list PyVal) (kw : Dict)
  : option PyVal :=
  match nth_error pos i with
  | Some v => Some v
  | None =>
      match lookup (p_name p) kw with
      | Some v => Some v
      | None => p_default p
      end
  end.

(** The endpoint and the query keys of a telemetry tool: the two
    timestamps travel as [from_ts] and [to_ts], every bound under the name
    of its parameter. *)
Definition endpoint (t : Tool) : string :=
  match t with
  | GetMachineData => "/machine"
  | GetAmbient => "/ambient"
  | _ => "/logs"
  end.

Definition query_keys (t : Tool) : list string :=
  "from_ts" :: "to_ts" :: map p_name (skipn 2 (signature t)).

(** The tools that reach the backend, and the request such a tool sends
    on its bound arguments: the telemetry tools pass the filter as
    [params], [get_logs] passes none. *)
Definition backend_tool (t : Tool) : bool :=
  match t with
  | GetMachineData | GetAmbient | GetLogs => true
  | _ => false
  end.

Definition request_of_call (BACKEND_URL : string) (t : Tool)
  (args : list PyVal) : Request :=
  mkRequest (BACKEND_URL ++ endpoint t)
    (if telemetry t then Some (combine (query_keys t) args) else None).

(** * Properties *)

(** ** Traces *)

Lemma requests_of_app (tr1 tr2 : Trace) :
  requests_of (tr1 ++ tr2)%list = (requests_of tr1 ++ requests_of tr2)%list.
Proof.
  induction tr1 as [|ev tr1 IH]; simpl; [reflexivity|].
  destruct ev; simpl; rewrite IH; reflexivity.
Qed.

Lemma fetch_requests (r : Request) (b : Backend) (tr : Trace) :
  requests_of (trace (fetch r) b tr) = (requests_of tr ++ [r])%list.
Proof.
  unfold trace, fetch. destruct (b r); simpl;
    rewrite requests_of_app; reflexivity.
Qed.

Lemma fetch_result (r : Request) (b : Backend) (tr : Trace) :
  result (fetch r) b tr =
  match b r with
  | inr resp => Ret (VStr (text resp))
  | inl e => Raise e
  end.
Proof. unfold result, fetch. destruct (b r); reflexivity. Qed.

Lemma fetch_returns_str (r : Request) (b : Backend) (tr : Trace) (v : PyVal) :
  result (fetch r) b tr = Ret v -> is_str v = true.
Proof.
  rewrite fetch_result. destruct (b r); intros H; inversion H; reflexivity.
Qed.

Ltac run_fetch :=
  intros; unfold fetch, bind, requests_get, print, ret;
  match goal with
  | |- context [match ?b ?r with _ => _ end] => destruct (b r)
  end; simpl; rewrite <- ?app_assoc; reflexivity.

Section ToolRuns.

Variable DATABASE_DESCR : string.
Variable BACKEND_URL : string.
Variable environ : string -> option string.

Lemma get_db_info_run (b : Backend) (tr : Trace) :
  get_db_info DATABASE_DESCR b tr = (Ret (VStr DATABASE_DESCR), tr).
Proof. reflexivity. Qed.

Lemma get_machine_data_run (a1 a2 a3 a4 a5 a6 a7 a8 a9 a10 a11 a12 a13 a14 : PyVal)
  (b : Backend) (tr : Trace) :
  get_machine_data BACKEND_URL a1 a2 a3 a4 a5 a6 a7 a8 a9 a10 a11 a12 a13 a14 b tr =
  fetch (mkRequest (BACKEND_URL ++ "/machine") (Some
    [ ("from_ts", a1); ("to_ts", a2);
      ("min_comb_op_tmp_1", a3); ("max_comb_op_tmp_1", a4);
      ("min_comb_op_tmp_2", a5); ("max_comb_op_tmp_2", a6);
      ("min_comb_op_tmp_3", a7); ("max_comb_op_tmp_3", a8);
      ("min_material_pressure", a9); ("max_material_pressure", a10);
      ("min_material_temperature", a11); ("max_material_temperature", a12);
      ("min_motor_rpm", a13); ("max_motor_rpm", a14) ])) b tr.
Proof. unfold get_machine_data. run_fetch. Qed.

Lemma get_ambient_run (a1 a2 a3 a4 a5 a6 a7 a8 : PyVal)
  (b : Backend) (tr : Trace) :
  get_ambient BACKEND_URL a1 a2 a3 a4 a5 a6 a7 a8 b tr =
  fetch (mkRequest (BACKEND_URL ++ "/ambient") (Some
    [ ("from_ts", a1); ("to_ts", a2);
      ("min_value_humidity", a3); ("max_value_humidity", a4);
      ("min_value_amb_temperature", a5); ("max_value_amb_temperature", a6);
      ("min_value_zone_1_temperature", a7);
      ("max_value_zone_1_temperature", a8) ])) b tr.
Proof. unfold get_ambient. run_fetch. Qed.

Lemma get_logs_run (b : Backend) (tr : Trace) :
  get_logs BACKEND_URL b tr =
  fetch (mkRequest (BACKEND_URL ++ "/logs") None) b tr.
Proof. unfold get_logs. run_fetch. Qed.

Lemma query_documentation_run (question : PyVal) (b : Backend) (tr : Trace) :
  query_documentation environ question b tr =
  match environ "AZURE_SEARCH_KEY" with
  | Some key =>
      if String.eqb key "" then (Raise (ValidationError "api_key"), tr)
      else (Ret VNone, tr)
  | None => (Raise (ValidationError "api_key"), tr)
  end.
Proof.
  unfold query_documentation, bind, lift, new_AzureCognitiveSearchRetriever.
  destruct (environ "AZURE_SEARCH_KEY") as [key|]; [|reflexivity].
  destruct (String.eqb key ""); reflexivity.
Qed.

Lemma query_documentation_with_key (question : PyVal) (b : Backend) (tr : Trace)
  (key : string) :
  environ "AZURE_SEARCH_KEY" = Some key ->
  key <> "" ->
  query_documentation environ question b tr = (Ret VNone, tr).
Proof.
  intros Hk Hne. rewrite query_documentation_run, Hk.
  apply String.eqb_neq in Hne. rewrite Hne. reflexivity.
Qed.

(** Whatever the environment holds, [query_documentation] leaves the
    trace alone and hands back [None] or an exception. *)
Lemma query_documentation_cases (question : PyVal) :
  exists res : Res PyVal,
    (res = Ret VNone \/ exists e, res = Raise e) /\
    forall b tr, query_documentation environ question b tr = (res, tr).
Proof.
  destruct (environ "AZURE_SEARCH_KEY") as [key|] eqn:Hk.
  - destruct (String.eqb key "") eqn:He.
    + exists (Raise (ValidationError "api_key")). split; [right; eauto|].
      intros b tr. rewrite query_documentation_run, Hk, He. reflexivity.
    + exists (Ret VNone). split; [left; reflexivity|].
      intros b tr. rewrite query_documentation_run, Hk, He. reflexivity.
  - exists (Raise (ValidationError "api_key")). split; [right; eauto|].
    intros b tr. rewrite query_documentation_run, Hk. reflexivity.
Qed.

Lemma visualize_run (table column : PyVal) (b : Backend) (tr : Trace) :
  visualize table column b tr = (Ret VNone, tr).
Proof. reflexivity. Qed.

End ToolRuns.

(** ** The binding of arguments *)

Lemma bind_params_length (sig : list Param) (kw : Dict) :
  forall (pos vs : list PyVal),
    bind_params sig pos kw = inr vs -> length vs = length sig.
Proof.
  induction sig as [|p sig IH]; intros pos vs H; simpl in H.
  - destruct pos; inversion H; reflexivity.
  - destruct pos as [|v pos].
    + destruct (lookup (p_name p) kw) as [w|];
        [|destruct (p_default p) as [w|]; [|discriminate]];
        (destruct (bind_params sig [] kw) as [e|ws] eqn:E; [discriminate|];
         inversion H; subst; simpl; f_equal; exact (IH _ _ E)).
    + destruct (lookup (p_name p) kw); [discriminate|].
      destruct (bind_params sig pos kw) as [e|ws] eqn:E; [discriminate|].
      inversion H; subst; simpl; f_equal; exact (IH _ _ E).
Qed.

Lemma bind_params_nth (sig : list Param) (kw : Dict) :
  forall (pos vs : list PyVal) (i : nat) (p : Param),
    bind_params sig pos kw = inr vs ->
    nth_error sig i = Some p ->
    nth_error vs i = bound_value p i pos kw /\ nth_error vs i <> None.
Proof.
  induction sig as [|q sig IH]; intros pos vs i p H Hp.
  - destruct i; discriminate.
  - simpl in H. destruct pos as [|v pos].
    + destruct (lookup (p_name q) kw) as [w|] eqn:L;
        [|destruct (p_default q) as [w|] eqn:D; [|discriminate]];
        (destruct (bind_params sig [] kw) as [e|ws] eqn:E; [discriminate|];
         inversion H; subst; clear H;
         destruct i as [|i]; simpl in *;
         [ inversion Hp; subst; unfold bound_value; simpl; rewrite L;
           split; [try rewrite D; reflexivity | discriminate]
         | destruct (IH _ _ _ _ E Hp) as [H1 H2]; split; [|exact H2];
           rewrite H1; unfold bound_value; destruct i; reflexivity ]).
    + destruct (lookup (p_name q) kw); [discriminate|].
      destruct (bind_params sig pos kw) as [e|ws] eqn:E; [discriminate|].
      inversion H; subst; clear H.
      destruct i as [|i]; simpl in *.
      * split; [reflexivity | discriminate].
      * exact (IH _ _ _ _ E Hp).
Qed.

Lemma not_supplied_position (sig : list Param) (pos : list PyVal) (kw : Dict)
  (i : nat) (p : Param) :
  nth_error sig i = Some p ->
  supplied sig pos kw (p_name p) = false ->
  nth_error pos i = None /\ lookup (p_name p) kw = None.
Proof.
  unfold supplied. intros Hp H.
  destruct (lookup (p_name p) kw); [discriminate|]. split; [|reflexivity].
  apply nth_error_None. apply Nat.nlt_ge. intros Hlt.
  assert (Hin : In (p_name p) (map p_name (firstn (length pos) sig))).
  { apply in_map. apply nth_error_In with (n := i).
    rewrite nth_error_firstn.
    destruct (Nat.ltb_spec i (length pos)); [exact Hp | lia]. }
  assert (Ht : existsb (String.eqb (p_name p))
                 (map p_name (firstn (length pos) sig)) = true).
  { apply existsb_exists. exists (p_name p). split; [exact Hin|].
    apply String.eqb_refl. }
  congruence.
Qed.

(** A parameter the call does not supply is bound to its default, and it
    has one. *)
Lemma bind_params_default (sig : list Param) (pos : list PyVal) (kw : Dict)
  (vs : list PyVal) (i : nat) (p : Param) :
  bind_params sig pos kw = inr vs ->
  nth_error sig i = Some p ->
  supplied sig pos kw (p_name p) = false ->
  nth_error vs i = p_default p /\ p_default p <> None.
Proof.
  intros H Hp Hs.
  destruct (not_supplied_position _ _ _ _ _ Hp Hs) as [Hpos Hkw].
  destruct (bind_params_nth _ _ _ _ _ _ H Hp) as [H1 H2].
  unfold bound_value in H1. rewrite Hpos, Hkw in H1.
  split; [exact H1 | congruence].
Qed.

(** With no positional argument, binding succeeds as soon as every
    parameter has a keyword or a default. *)
Lemma bind_params_keywords_ok (sig : list Param) (kw : Dict) :
  (forall p, In p sig -> lookup (p_name p) kw <> None \/ p_default p <> None) ->
  exists vs, bind_params sig [] kw = inr vs.
Proof.
  induction sig as [|p sig IH]; intros H; simpl.
  - exists []. reflexivity.
  - destruct IH as [vs E]; [intros q Hq; apply H; right; exact Hq|].
    rewrite E.
    destruct (H p (or_introl eq_refl)) as [Hk|Hd].
    + destruct (lookup (p_name p) kw) as [v|]; [|congruence].
      exists (v :: vs). reflexivity.
    + destruct (lookup (p_name p) kw) as [v|].
      * exists (v :: vs). reflexivity.
      * destruct (p_default p) as [v|]; [|congruence].
        exists (v :: vs). reflexivity.
Qed.

Lemma bind_args_params (sig : list Param) (pos : list PyVal) (kw : Dict)
  (vs : list PyVal) :
  bind_args sig pos kw = inr vs -> bind_params sig pos kw = inr vs.
Proof.
  unfold bind_args.
  destruct (keyword_error sig (length pos) kw); [discriminate | trivial].
Qed.

(** The first look at the call goes by the order of the keywords, the
    rest by the order of the signature. *)
Example keyword_filled_positionally_comes_first :
  bind_args get_machine_data_sig [VStr "a"; VStr "b"]
    [("from_timestamp", VStr "x"); ("bogus", VInt 1)]
  = inl (Multiple "from_timestamp").
Proof. reflexivity. Qed.

Example unknown_keyword_comes_first :
  bind_args get_machine_data_sig [VStr "a"; VStr "b"]
    [("bogus", VInt 1); ("from_timestamp", VStr "x")]
  = inl (Unexpected "bogus").
Proof. reflexivity. Qed.

Example keywords_before_positional_count :
  bind_args get_logs_sig [VInt 1] [("limit", VInt 5)]
  = inl (Unexpected "limit") /\
  bind_args get_logs_sig [VInt 1] [] = inl TooManyPositional.
Proof. split; reflexivity. Qed.

(** ** Invocation through the registry *)

Lemma registry_complete (t : Tool) : In t registry.
Proof. destruct t; simpl; tauto. Qed.

Ltac exact_length H :=
  repeat match type of H with
    | length ?l = S _ =>
        destruct l as [|? l]; [discriminate H | simpl in H; injection H as H]
    | length ?l = O =>
        destruct l; [clear H | discriminate H]
    end.

Section Invocation.

Variable DATABASE_DESCR : string.
Variable BACKEND_URL : string.
Variable environ : string -> option string.

Let call := invoke DATABASE_DESCR BACKEND_URL environ.
Let run_body := body DATABASE_DESCR BACKEND_URL environ.

Lemma body_telemetry (t : Tool) (args : list PyVal) (b : Backend) (tr : Trace) :
  telemetry t = true ->
  length args = length (signature t) ->
  run_body t args b tr =
  fetch (mkRequest (BACKEND_URL ++ endpoint t)
           (Some (combine (query_keys t) args))) b tr.
Proof.
  intros Ht Hlen. destruct t; try discriminate Ht; simpl in Hlen;
    exact_length Hlen; unfold run_body, body; simpl.
  - apply get_machine_data_run.
  - apply get_ambient_run.
Qed.

Lemma invoke_bound (t : Tool) (pos : list PyVal) (kw : Dict) (args : list PyVal) :
  bind_args (signature t) pos kw = inr args ->
  call t pos kw = run_body t args.
Proof. intros H. unfold call, invoke. rewrite H. reflexivity. Qed.

Lemma invoke_telemetry (t : Tool) (pos : list PyVal) (kw : Dict)
  (args : list PyVal) (b : Backend) (tr : Trace) :
  telemetry t = true ->
  bind_args (signature t) pos kw = inr args ->
  call t pos kw b tr =
  fetch (mkRequest (BACKEND_URL ++ endpoint t)
           (Some (combine (query_keys t) args))) b tr.
Proof.
  intros Ht H. rewrite (invoke_bound _ _ _ _ H).
  apply body_telemetry; [exact Ht|].
  apply bind_params_length with (pos := pos) (kw := kw).
  apply bind_args_params. exact H.
Qed.

Lemma invoke_rejected (t : Tool) (pos : list PyVal) (kw : Dict) (e : ArgError)
  (b : Backend) (tr : Trace) :
  bind_args (signature t) pos kw = inl e ->
  call t pos kw b tr = (Raise (TypeError e), tr).
Proof. intros H. unfold call, invoke. rewrite H. reflexivity. Qed.

(** The four tools that have a body return a string whenever they
    return. *)
Lemma implemented_tools_return_str (t : Tool) (pos : list PyVal) (kw : Dict)
  (b : Backend) (tr : Trace) (v : PyVal) :
  In t [GetDbInfo; GetMachineData; GetAmbient; GetLogs] ->
  result (call t pos kw) b tr = Ret v ->
  is_str v = true.
Proof.
  intros Ht. destruct (bind_args (signature t) pos kw) as [e|args] eqn:E.
  - unfold result. rewrite (invoke_rejected _ _ _ _ _ _ E). discriminate.
  - pose proof (bind_params_length _ _ _ _ (bind_args_params _ _ _ _ E)) as Hlen.
    simpl in Ht.
    destruct Ht as [<-|[<-|[<-|[<-|[]]]]]; simpl in Hlen.
    + exact_length Hlen. rewrite (invoke_bound _ _ _ _ E).
      unfold result. intros H. inversion H. reflexivity.
    + unfold result. rewrite (invoke_telemetry GetMachineData _ _ _ b tr eq_refl E).
      apply fetch_returns_str.
    + unfold result. rewrite (invoke_telemetry GetAmbient _ _ _ b tr eq_refl E).
      apply fetch_returns_str.
    + exact_length Hlen. rewrite (invoke_bound _ _ _ _ E).
      unfold result, run_body, body. simpl. rewrite get_logs_run.
      apply fetch_returns_str.
Qed.

End Invocation.

(** ** The database description *)

(** C8: [get_db_info] takes no input, and every invocation returns the
    configured description string, whatever the backend would answer and
    whatever happened before; it raises nothing and leaves the trace as it
    found it (no request, nothing printed). *)
Theorem get_db_info_fixed :
  forall (DATABASE_DESCR BACKEND_URL : string) (environ : string -> option string),
    signature GetDbInfo = [] /\
    (forall (b : Backend) (tr : Trace),
        get_db_info DATABASE_DESCR b tr = (Ret (VStr DATABASE_DESCR), tr)) /\
    (forall (b : Backend) (tr : Trace),
        invoke DATABASE_DESCR BACKEND_URL environ GetDbInfo [] [] b tr =
        (Ret (VStr DATABASE_DESCR), tr)).
Proof.
  intros D U env. split; [reflexivity|].
  split; intros b tr; reflexivity.
Qed.

(** ** The two stubs *)

(** C10, where it fails: with no [AZURE_SEARCH_KEY] in the environment
    the retriever cannot be built, and [query_documentation] raises
    instead of returning [None]. *)
Lemma query_documentation_raises_without_key :
  result (query_documentation (fun _ => None)
            (VStr "How do I reset machine 1?"))
    (fun _ => inr (mkResponse 200 "[]")) []
  = Raise (ValidationError "api_key") /\
  result (query_documentation (fun _ => None)
            (VStr "How do I reset machine 1?"))
    (fun _ => inr (mkResponse 200 "[]")) []
  <> Ret VNone.
Proof. split; [reflexivity | discriminate]. Qed.

(** C10, amended: [visualize] returns [None] for every table and column,
    and [query_documentation] returns [None] for every question whenever
    [AZURE_SEARCH_KEY] is set to a key that is not empty, called directly
    or through the registry. Neither reaches the backend or prints, in
    any environment: the trace is left as it was. *)
Theorem stubs_return_none :
  forall (DATABASE_DESCR BACKEND_URL : string) (environ : string -> option string),
    (forall (question : PyVal) (b : Backend) (tr : Trace),
        trace (query_documentation environ question) b tr = tr /\
        forall key : string,
          environ "AZURE_SEARCH_KEY" = Some key ->
          key <> "" ->
          query_documentation environ question b tr = (Ret VNone, tr) /\
          invoke DATABASE_DESCR BACKEND_URL environ QueryDocumentation
            [question] [] b tr = (Ret VNone, tr)) /\
    (forall (table column : PyVal) (b : Backend) (tr : Trace),
        visualize table column b tr = (Ret VNone, tr) /\
        invoke DATABASE_DESCR BACKEND_URL environ Visualize
          [table; column] [] b tr = (Ret VNone, tr)).
Proof.
  intros D U env. split.
  - intros question b tr. split.
    + destruct (query_documentation_cases env question) as [res [_ H]].
      unfold trace. rewrite H. reflexivity.
    + intros key Hk Hne.
      pose proof (query_documentation_with_key env question b tr key Hk Hne)
        as H.
      split; [exact H|].
      change (invoke D U env QueryDocumentation [question] [] b tr)
        with (query_documentation env question b tr).
      exact H.
  - intros; split; reflexivity.
Qed.

Lemma stubs_return_none_witness :
  query_documentation
    (fun name => if String.eqb name "AZURE_SEARCH_KEY" then Some "s3cr3t"
                 else None)
    (VStr "How do I reset machine 1?")
    (fun _ => inr (mkResponse 200 "[]")) []
  = (Ret VNone, []).
Proof.
  exact (proj1
           (proj2
              (proj1 (stubs_return_none "" "http://backend:5000"
                        (fun name =>
                           if String.eqb name "AZURE_SEARCH_KEY"
                           then Some "s3cr3t" else None))
                 (VStr "How do I reset machine 1?")
                 (fun _ => inr (mkResponse 200 "[]")) [])
              "s3cr3t" eq_refl
              (fun H : "s3cr3t" = "" => eq_ind "s3cr3t"%string
                 (fun s => match s with EmptyString => False | _ => True end)
                 I "" H))).
Defined.

(** C1, at the input where it fails: called with a question, the
    documentation tool never hands the agent a string, whatever the
    environment; with a key in [AZURE_SEARCH_KEY] it returns, and the
    value it returns is not a string. *)
Theorem query_documentation_result_not_str :
  forall (DATABASE_DESCR BACKEND_URL : string) (environ : string -> option string)
         (b : Backend) (tr : Trace),
    (forall s : string,
        result (invoke DATABASE_DESCR BACKEND_URL environ QueryDocumentation
                  [VStr "How do I reset machine 1?"] []) b tr
        <> Ret (VStr s)) /\
    (forall key : string,
        environ "AZURE_SEARCH_KEY" = Some key ->
        key <> "" ->
        exists v : PyVal,
          result (invoke DATABASE_DESCR BACKEND_URL environ QueryDocumentation
                    [VStr "How do I reset machine 1?"] []) b tr = Ret v /\
          is_str v = false).
Proof.
  intros D U env b tr.
  change (invoke D U env QueryDocumentation
            [VStr "How do I reset machine 1?"] [])
    with (query_documentation env (VStr "How do I reset machine 1?")).
  split.
  - intros s.
    destruct (query_documentation_cases env (VStr "How do I reset machine 1?"))
      as [res [Hres H]].
    unfold result. rewrite H. simpl.
    destruct Hres as [->|[e ->]]; discriminate.
  - intros key Hk Hne. exists VNone. unfold result.
    rewrite (query_documentation_with_key env _ b tr key Hk Hne).
    split; reflexivity.
Qed.

Lemma query_documentation_result_not_str_witness :
  exists v : PyVal,
    result (invoke "" "http://backend:5000"
              (fun name => if String.eqb name "AZURE_SEARCH_KEY"
                           then Some "s3cr3t" else None)
              QueryDocumentation [VStr "How do I reset machine 1?"] [])
      (fun _ => inr (mkResponse 200 "[]")) []
    = Ret v /\
    is_str v = false.
Proof.
  exact (proj2 (query_documentation_result_not_str "" "http://backend:5000"
                  (fun name => if String.eqb name "AZURE_SEARCH_KEY"
                               then Some "s3cr3t" else None)
                  (fun _ => inr (mkResponse 200 "[]")) [])
           "s3cr3t" eq_refl
           (fun H : "s3cr3t" = "" => eq_ind "s3cr3t"%string
              (fun s => match s with EmptyString => False | _ => True end)
              I "" H)).
Defined.

(** C5, on the code: the index is never consulted, so whatever passages
    it would yield for a question, the documentation tool returns no
    string at all, and in particular no fixed no-answer string. *)
Theorem query_documentation_no_answer_string :
  forall (environ : string -> option string) (question : PyVal)
         (b : Backend) (tr : Trace) (answer : string),
    result (query_documentation environ question) b tr <> Ret (VStr answer).
Proof.
  intros env question b tr answer. unfold result.
  destruct (query_documentation_cases env question) as [res [Hres H]].
  rewrite H. simpl. destruct Hres as [->|[e ->]]; discriminate.
Qed.

(** C6, on the code: for a table that no endpoint serves, [visualize]
    raises nothing and returns [None], not a description of the error;
    the trace shows no request. *)
Theorem visualize_unknown_table_silent :
  forall (DATABASE_DESCR BACKEND_URL : string) (environ : string -> option string)
         (b : Backend) (tr : Trace),
    result (invoke DATABASE_DESCR BACKEND_URL environ Visualize
              [VStr "no_such_table"; VStr "motor_rpm"] []) b tr = Ret VNone /\
    trace (invoke DATABASE_DESCR BACKEND_URL environ Visualize
             [VStr "no_such_table"; VStr "motor_rpm"] []) b tr = tr.
Proof.
  intros D U env b tr. split; reflexivity.
Qed.

(** ** Which parameters of [get_machine_data] may be omitted *)

(** With no positional argument, keywords that all name a parameter pass
    the first look at the call. *)
Lemma bind_args_known_keywords (sig : list Param) (kw : Dict) :
  (forall k, In k (keys kw) -> is_param sig k = true) ->
  bind_args sig [] kw = bind_params sig [] kw.
Proof.
  intros H. unfold bind_args.
  assert (E : keyword_error sig (length (@nil PyVal)) kw = None).
  { simpl length. induction kw as [|[k v] kw IH]; [reflexivity|].
    simpl. rewrite (H k (or_introl eq_refl)). apply IH.
    intros k' Hk'. apply H. right. exact Hk'. }
  rewrite E. reflexivity.
Qed.

(** A parameter without a default that the call does not supply makes the
    binding fail. *)
Lemma bind_args_missing (sig : list Param) (pos : list PyVal) (kw : Dict)
  (i : nat) (p : Param) :
  nth_error sig i = Some p ->
  p_default p = None ->
  supplied sig pos kw (p_name p) = false ->
  exists e, bind_args sig pos kw = inl e.
Proof.
  intros Hp Hd Hs.
  destruct (bind_args sig pos kw) as [e|vs] eqn:E; [exists e; reflexivity|].
  apply bind_args_params in E.
  destruct (bind_params_default _ _ _ _ _ _ E Hp Hs) as [_ H].
  contradiction.
Qed.

(** C2, as the signature has it: no default stands behind
    [from_timestamp] or [to_timestamp], and a call that leaves one of them
    out is rejected. *)
Lemma get_machine_data_timestamps_required :
  ~ (forall p, In p get_machine_data_sig -> p_default p <> None) /\
  bind_args get_machine_data_sig [] [] = inl (Missing "from_timestamp") /\
  bind_args get_machine_data_sig [] [("to_timestamp", VStr "2024-01-02 00:00:00")]
  = inl (Missing "from_timestamp") /\
  bind_args get_machine_data_sig [VStr "2024-01-01 00:00:00"] []
  = inl (Missing "to_timestamp").
Proof.
  split; [|repeat split; reflexivity].
  intros H. apply (H (required "from_timestamp")); [|reflexivity].
  simpl. left. reflexivity.
Qed.

(** C2, amended: exactly the twelve value bounds have a default. A call
    by keywords that names both timestamps binds, whichever of the bounds
    it leaves out; a call that does not supply both timestamps is
    rejected. *)
Theorem get_machine_data_optional_bounds :
  (forall p, In p get_machine_data_sig ->
     p_default p = None <->
     (p_name p = "from_timestamp" \/ p_name p = "to_timestamp")) /\
  (forall kw : Dict,
     (forall k, In k (keys kw) -> is_param get_machine_data_sig k = true) ->
     lookup "from_timestamp" kw <> None ->
     lookup "to_timestamp" kw <> None ->
     exists args, bind_args get_machine_data_sig [] kw = inr args) /\
  (forall (pos : list PyVal) (kw : Dict),
     supplied get_machine_data_sig pos kw "from_timestamp" = false \/
     supplied get_machine_data_sig pos kw "to_timestamp" = false ->
     exists e, bind_args get_machine_data_sig pos kw = inl e).
Proof.
  split; [|split].
  - intros p Hp. simpl in Hp.
    repeat (destruct Hp as [<-|Hp];
            [simpl; split;
             [ intros H; first [discriminate H | tauto]
             | intros [H|H]; first [discriminate H | reflexivity] ] |]).
    contradiction.
  - intros kw Hk Hf Ht. rewrite (bind_args_known_keywords _ _ Hk).
    apply bind_params_keywords_ok. intros p Hp. simpl in Hp.
    destruct Hp as [<-|Hp]; [left; exact Hf|].
    destruct Hp as [<-|Hp]; [left; exact Ht|].
    right.
    repeat (destruct Hp as [<-|Hp]; [discriminate|]).
    contradiction.
  - intros pos kw [H|H].
    + exact (bind_args_missing get_machine_data_sig pos kw 0
               (required "from_timestamp") eq_refl eq_refl H).
    + exact (bind_args_missing get_machine_data_sig pos kw 1
               (required "to_timestamp") eq_refl eq_refl H).
Qed.

Lemma get_machine_data_optional_bounds_witness :
  (exists args,
      bind_args get_machine_data_sig []
        [("from_timestamp", VStr "2024-01-01 00:00:00");
         ("to_timestamp", VStr "2024-01-02 00:00:00");
         ("max_motor_rpm", VInt 1500)] = inr args) /\
  (exists e,
      bind_args get_machine_data_sig [] [("max_motor_rpm", VInt 1500)] = inl e).
Proof.
  destruct get_machine_data_optional_bounds as [_ [Hok Hrej]].
  split.
  - apply Hok.
    + intros k Hk. simpl in Hk.
      destruct Hk as [<-|[<-|[<-|[]]]]; reflexivity.
    + simpl. discriminate.
    + simpl. discriminate.
  - apply Hrej. left. reflexivity.
Defined.

(** ** Defaults on the wire *)

(** Find the position of the omitted parameter, read its default off the
    signature, and identify it with the value under the query key. *)
Ltac default_at Hb Hs i :=
  let Hd := fresh "Hd" in
  pose proof (proj1 (bind_params_default _ _ _ _ i _ Hb eq_refl Hs)) as Hd;
  simpl in Hd; injection Hd as ->; reflexivity.

Ltac default_bound Hb Hs :=
  lazymatch type of Hs with
  | supplied ?sig _ _ ?k = false =>
      let i := eval vm_compute in (index_of k sig) in
      default_at Hb Hs i
  end.

Lemma omitted_bounds_default (t : Tool) (pos : list PyVal) (kw : Dict)
  (args : list PyVal) (url : string) (q : Quantity) :
  telemetry t = true ->
  bind_params (signature t) pos kw = inr args ->
  In q (quantities t) ->
  let r := mkRequest url (Some (combine (query_keys t) args)) in
  (supplied (signature t) pos kw (fst (bound_keys q)) = false ->
   query_value r (fst (bound_keys q)) = Some (VInt (fst (spec_range q)))) /\
  (supplied (signature t) pos kw (snd (bound_keys q)) = false ->
   query_value r (snd (bound_keys q)) = Some (VInt (snd (spec_range q)))).
Proof.
  intros Ht Hb Hq r. subst r.
  pose proof (bind_params_length _ _ _ _ Hb) as Hlen.
  destruct t; try discriminate Ht; simpl in Hlen; exact_length Hlen;
    simpl in Hq;
    repeat (destruct Hq as [<-|Hq];
            [split; intros Hs; unfold query_value; simpl;
             default_bound Hb Hs |]);
    contradiction.
Qed.

(** C3: whenever a call of a telemetry tool binds, it sends one request,
    and every bound the call leaves out travels in it with the documented
    default: 0 to 200 for the machine's temperatures, 0 to 1000 for the
    pressure, 0 to 3000 for the RPM, 0 to 100 for the ambient quantities.
    In particular [get_machine_data] called with the two timestamps alone
    sends them followed by exactly the documented defaults. *)
Theorem default_bounds_forwarded :
  forall (DATABASE_DESCR BACKEND_URL : string) (environ : string -> option string),
    (forall (t : Tool) (pos : list PyVal) (kw : Dict) (args : list PyVal)
            (b : Backend) (tr : Trace),
        telemetry t = true ->
        bind_args (signature t) pos kw = inr args ->
        exists r : Request,
          requests_of
            (trace (invoke DATABASE_DESCR BACKEND_URL environ t pos kw) b tr)
          = (requests_of tr ++ [r])%list /\
          forall q, In q (quantities t) ->
            (supplied (signature t) pos kw (fst (bound_keys q)) = false ->
             query_value r (fst (bound_keys q))
             = Some (VInt (fst (spec_range q)))) /\
            (supplied (signature t) pos kw (snd (bound_keys q)) = false ->
             query_value r (snd (bound_keys q))
             = Some (VInt (snd (spec_range q))))) /\
    (forall (from_timestamp to_timestamp : PyVal) (b : Backend) (tr : Trace),
        requests_of
          (trace (invoke DATABASE_DESCR BACKEND_URL environ GetMachineData []
                    [("from_timestamp", from_timestamp);
                     ("to_timestamp", to_timestamp)]) b tr)
        = (requests_of tr ++
           [mkRequest (BACKEND_URL ++ "/machine")
              (Some (("from_ts", from_timestamp) :: ("to_ts", to_timestamp)
                     :: spec_defaults GetMachineData))])%list).
Proof.
  intros D U env. split.
  - intros t pos kw args b tr Ht Hb.
    exists (mkRequest (U ++ endpoint t) (Some (combine (query_keys t) args))).
    split.
    + unfold trace. rewrite (invoke_telemetry D U env t pos kw args b tr Ht Hb).
      apply fetch_requests.
    + intros q Hq.
      exact (omitted_bounds_default t pos kw args _ q Ht
               (bind_args_params _ _ _ _ Hb) Hq).
  - intros f t b tr. unfold trace.
    assert (E : bind_args (signature GetMachineData) []
                  [("from_timestamp", f); ("to_timestamp", t)]
                = inr (f :: t :: map snd (spec_defaults GetMachineData)))
      by reflexivity.
    rewrite (invoke_telemetry D U env GetMachineData _ _ _ b tr eq_refl E).
    apply fetch_requests.
Qed.

Lemma default_bounds_forwarded_witness :
  exists r : Request,
    requests_of
      (trace (invoke "machine, ambient, logs" "http://backend:5000"
                (fun _ => None) GetAmbient
                [VStr "2024-01-01 00:00:00"; VStr "2024-01-02 00:00:00"]
                [("max_value_humidity", VInt 60)])
         (fun _ => inr (mkResponse 200 "[]")) [])
    = [r] /\
    query_value r "min_value_humidity" = Some (VInt 0) /\
    query_value r "max_value_zone_1_temperature" = Some (VInt 100).
Proof.
  destruct (proj1 (default_bounds_forwarded "machine, ambient, logs"
                     "http://backend:5000" (fun _ => None))
              GetAmbient
              [VStr "2024-01-01 00:00:00"; VStr "2024-01-02 00:00:00"]
              [("max_value_humidity", VInt 60)]
              [VStr "2024-01-01 00:00:00"; VStr "2024-01-02 00:00:00";
               VInt 0; VInt 60; VInt 0; VInt 100; VInt 0; VInt 100]
              (fun _ => inr (mkResponse 200 "[]")) [] eq_refl eq_refl)
    as [r [Hr Hq]].
  exists r. split; [exact Hr|]. split.
  - exact (proj1 (Hq Humidity (or_introl eq_refl)) eq_refl).
  - exact (proj2 (Hq Zone1Temperature (or_intror (or_intror (or_introl eq_refl))))
             eq_refl).
Defined.

(** ** Timestamps and filters on the wire *)

(** C4: for two timestamp strings in order, [get_machine_data] and
    [get_ambient] each send one request, and it carries the first string
    under [from_ts] and the second under [to_ts], as they were passed. *)
Theorem timestamps_forwarded_unmodified :
  forall (BACKEND_URL : string) (from_timestamp to_timestamp : string),
    String.leb from_timestamp to_timestamp = true ->
    (forall (a3 a4 a5 a6 a7 a8 a9 a10 a11 a12 a13 a14 : PyVal)
            (b : Backend) (tr : Trace),
        exists r : Request,
          requests_of
            (trace (get_machine_data BACKEND_URL
                      (VStr from_timestamp) (VStr to_timestamp)
                      a3 a4 a5 a6 a7 a8 a9 a10 a11 a12 a13 a14) b tr)
          = (requests_of tr ++ [r])%list /\
          req_url r = BACKEND_URL ++ "/machine" /\
          query_value r "from_ts" = Some (VStr from_timestamp) /\
          query_value r "to_ts" = Some (VStr to_timestamp)) /\
    (forall (a3 a4 a5 a6 a7 a8 : PyVal) (b : Backend) (tr : Trace),
        exists r : Request,
          requests_of
            (trace (get_ambient BACKEND_URL
                      (VStr from_timestamp) (VStr to_timestamp)
                      a3 a4 a5 a6 a7 a8) b tr)
          = (requests_of tr ++ [r])%list /\
          req_url r = BACKEND_URL ++ "/ambient" /\
          query_value r "from_ts" = Some (VStr from_timestamp) /\
          query_value r "to_ts" = Some (VStr to_timestamp)).
Proof.
  intros U f t _. split; intros; eexists; unfold trace.
  - rewrite get_machine_data_run. split; [apply fetch_requests|].
    repeat split.
  - rewrite get_ambient_run. split; [apply fetch_requests|].
    repeat split.
Qed.

Lemma timestamps_forwarded_unmodified_witness :
  String.leb "2024-01-01 00:00:00" "2024-01-02 00:00:00" = true /\
  exists r : Request,
    requests_of
      (trace (get_ambient "http://backend:5000"
                (VStr "2024-01-01 00:00:00") (VStr "2024-01-02 00:00:00")
                (VInt 0) (VInt 100) (VInt 0) (VInt 100) (VInt 0) (VInt 100))
         (fun _ => inr (mkResponse 200 "[]")) [])
    = [r] /\
    query_value r "from_ts" = Some (VStr "2024-01-01 00:00:00") /\
    query_value r "to_ts" = Some (VStr "2024-01-02 00:00:00").
Proof.
  split; [reflexivity|].
  destruct (proj2 (timestamps_forwarded_unmodified "http://backend:5000"
                     "2024-01-01 00:00:00" "2024-01-02 00:00:00" eq_refl)
              (VInt 0) (VInt 100) (VInt 0) (VInt 100) (VInt 0) (VInt 100)
              (fun _ => inr (mkResponse 200 "[]")) [])
    as [r [Hr [_ [Hf Ht]]]].
  exists r. split; [exact Hr|]. split; [exact Hf | exact Ht].
Defined.

(** C7: whatever the fourteen arguments are (a minimum above its maximum,
    a timestamp in no format, a value of another type), a call of
    [get_machine_data] binds, sends one request that carries each argument
    unchanged under its key, and ends the way the backend answers it: the
    text of the response, or the exception the request raised. Nothing is
    rejected before the request. *)
Theorem get_machine_data_no_local_validation :
  forall (BACKEND_URL : string)
         (a1 a2 a3 a4 a5 a6 a7 a8 a9 a10 a11 a12 a13 a14 : PyVal)
         (b : Backend) (tr : Trace),
    let r := mkRequest (BACKEND_URL ++ "/machine") (Some
      [ ("from_ts", a1); ("to_ts", a2);
        ("min_comb_op_tmp_1", a3); ("max_comb_op_tmp_1", a4);
        ("min_comb_op_tmp_2", a5); ("max_comb_op_tmp_2", a6);
        ("min_comb_op_tmp_3", a7); ("max_comb_op_tmp_3", a8);
        ("min_material_pressure", a9); ("max_material_pressure", a10);
        ("min_material_temperature", a11); ("max_material_temperature", a12);
        ("min_motor_rpm", a13); ("max_motor_rpm", a14) ]) in
    let c := get_machine_data BACKEND_URL
               a1 a2 a3 a4 a5 a6 a7 a8 a9 a10 a11 a12 a13 a14 in
    bind_args get_machine_data_sig
      [a1; a2; a3; a4; a5; a6; a7; a8; a9; a10; a11; a12; a13; a14] []
    = inr [a1; a2; a3; a4; a5; a6; a7; a8; a9; a10; a11; a12; a13; a14] /\
    requests_of (trace c b tr) = (requests_of tr ++ [r])%list /\
    result c b tr =
    match b r with
    | inr resp => Ret (VStr (text resp))
    | inl e => Raise e
    end.
Proof.
  intros U a1 a2 a3 a4 a5 a6 a7 a8 a9 a10 a11 a12 a13 a14 b tr r c.
  split; [reflexivity|]. subst c. unfold trace, result.
  rewrite get_machine_data_run. fold r.
  split; [apply fetch_requests | apply fetch_result].
Qed.

(** An inverted range and a malformed timestamp, as they leave the tool. *)
Example get_machine_data_inverted_range :
  forall (b : Backend),
    requests_of
      (trace (invoke "" "http://backend:5000" (fun _ => None) GetMachineData
                [VStr "yesterday"; VStr "31/12/2024"]
                [("min_motor_rpm", VInt 2500); ("max_motor_rpm", VInt 100)])
         b [])
    = [ mkRequest "http://backend:5000/machine" (Some
          [ ("from_ts", VStr "yesterday"); ("to_ts", VStr "31/12/2024");
            ("min_comb_op_tmp_1", VInt 0); ("max_comb_op_tmp_1", VInt 200);
            ("min_comb_op_tmp_2", VInt 0); ("max_comb_op_tmp_2", VInt 200);
            ("min_comb_op_tmp_3", VInt 0); ("max_comb_op_tmp_3", VInt 200);
            ("min_material_pressure", VInt 0);
            ("max_material_pressure", VInt 1000);
            ("min_material_temperature", VInt 0);
            ("max_material_temperature", VInt 200);
            ("min_motor_rpm", VInt 2500); ("max_motor_rpm", VInt 100) ]) ].
Proof.
  intros b. unfold trace.
  match goal with
  | |- context [invoke ?D ?U ?env ?t ?pos ?kw b []] =>
      let bound := eval vm_compute in (bind_args (signature t) pos kw) in
      match bound with
      | inr ?args =>
          rewrite (invoke_telemetry D U env t pos kw args b [] eq_refl eq_refl)
      end
  end.
  apply fetch_requests.
Qed.

(** ** Determinism *)

(** Every invocation either ends without touching the world, with a
    result fixed by the arguments, or is one [fetch] of a request fixed by
    the arguments. *)
Lemma invoke_shape (DATABASE_DESCR BACKEND_URL : string)
  (environ : string -> option string)
  (t : Tool) (pos : list PyVal) (kw : Dict) :
  (exists res : Res PyVal, forall b tr,
      invoke DATABASE_DESCR BACKEND_URL environ t pos kw b tr = (res, tr)) \/
  (exists r : Request, forall b tr,
      invoke DATABASE_DESCR BACKEND_URL environ t pos kw b tr = fetch r b tr).
Proof.
  destruct (bind_args (signature t) pos kw) as [e|args] eqn:E.
  - left. exists (Raise (TypeError e)). intros b tr.
    apply invoke_rejected. exact E.
  - pose proof (bind_params_length _ _ _ _ (bind_args_params _ _ _ _ E)) as Hlen.
    destruct t; simpl in Hlen.
    + exact_length Hlen. left. exists (Ret (VStr DATABASE_DESCR)).
      intros b tr. rewrite (invoke_bound _ _ _ _ _ _ _ E). reflexivity.
    + right. eexists. intros b tr.
      apply (invoke_telemetry _ _ _ GetMachineData _ _ _ b tr eq_refl E).
    + right. eexists. intros b tr.
      apply (invoke_telemetry _ _ _ GetAmbient _ _ _ b tr eq_refl E).
    + exact_length Hlen. right. eexists. intros b tr.
      rewrite (invoke_bound _ _ _ _ _ _ _ E). simpl. apply get_logs_run.
    + exact_length Hlen. left.
      match type of E with
      | _ = inr [?q] =>
          destruct (query_documentation_cases environ q) as [res [_ H]]
      end.
      exists res.
      intros b tr. rewrite (invoke_bound _ _ _ _ _ _ _ E). apply H.
    + exact_length Hlen. left. exists (Ret VNone).
      intros b tr. rewrite (invoke_bound _ _ _ _ _ _ _ E). reflexivity.
Qed.

(** C9: two invocations of one tool with the same arguments end with the
    same result (the same returned value, or the same exception) as soon
    as the backend answers the request the tool sends the same way both
    times; what was requested or printed before does not matter. In
    particular an invocation repeated right after itself against an
    unchanged backend repeats its result. *)
Theorem tools_deterministic :
  forall (DATABASE_DESCR BACKEND_URL : string) (environ : string -> option string)
         (t : Tool) (pos : list PyVal) (kw : Dict),
    let c := invoke DATABASE_DESCR BACKEND_URL environ t pos kw in
    (forall (b1 b2 : Backend) (tr1 tr2 : Trace),
        (forall r, In r (requests_of (trace c b1 [])) -> b1 r = b2 r) ->
        result c b1 tr1 = result c b2 tr2) /\
    (forall (b : Backend) (tr : Trace),
        result c b (trace c b tr) = result c b tr).
Proof.
  intros D U env t pos kw c. subst c.
  destruct (invoke_shape D U env t pos kw) as [[res H]|[r H]].
  - split; intros; unfold result; rewrite !H; reflexivity.
  - split.
    + intros b1 b2 tr1 tr2 Hsame. unfold result, trace in *.
      rewrite !H. rewrite H in Hsame.
      change (result (fetch r) b1 tr1 = result (fetch r) b2 tr2).
      rewrite !fetch_result. rewrite <- (Hsame r); [reflexivity|].
      change (In r (requests_of (trace (fetch r) b1 []))).
      rewrite fetch_requests. left. reflexivity.
    + intros b tr. unfold result. rewrite !H.
      change (result (fetch r) b (trace
                (invoke D U env t pos kw) b tr) = result (fetch r) b tr).
      rewrite !fetch_result. reflexivity.
Qed.

Lemma tools_deterministic_witness :
  result (invoke "" "http://backend:5000" (fun _ => None) GetLogs [] [])
    (fun _ => inr (mkResponse 200 "[]")) []
  = result (invoke "" "http://backend:5000" (fun _ => None) GetLogs [] [])
      (fun r => match req_params r with
                | None => inr (mkResponse 200 "[]")
                | Some _ => inl (RequestException "connection refused")
                end)
      [EvPrint "earlier output"].
Proof.
  apply (proj1 (tools_deterministic "" "http://backend:5000" (fun _ => None)
                  GetLogs [] [])).
  intros r Hr. vm_compute in Hr. destruct Hr as [<-|[]]. reflexivity.
Defined.

(** * Further properties of the tools *)

(** ** What an invocation does to the world *)

(** A call of a backend tool that binds is one [fetch] of the request
    read off the bound arguments. *)
Lemma invoke_backend_tool (DATABASE_DESCR BACKEND_URL : string)
  (environ : string -> option string) (t : Tool) (pos : list PyVal) (kw : Dict)
  (args : list PyVal) (b : Backend) (tr : Trace) :
  backend_tool t = true ->
  bind_args (signature t) pos kw = inr args ->
  invoke DATABASE_DESCR BACKEND_URL environ t pos kw b tr =
  fetch (request_of_call BACKEND_URL t args) b tr.
Proof.
  intros Ht E.
  destruct t; try discriminate Ht; unfold request_of_call; simpl telemetry; cbv iota.
  - apply (invoke_telemetry _ _ _ GetMachineData _ _ _ b tr eq_refl E).
  - apply (invoke_telemetry _ _ _ GetAmbient _ _ _ b tr eq_refl E).
  - pose proof (bind_params_length _ _ _ _ (bind_args_params _ _ _ _ E)) as Hlen.
    simpl in Hlen. exact_length Hlen.
    rewrite (invoke_bound _ _ _ _ _ _ _ E). simpl. apply get_logs_run.
Qed.

(** A call of one of the other three tools leaves the trace alone. *)
Lemma invoke_local_tool (DATABASE_DESCR BACKEND_URL : string)
  (environ : string -> option string) (t : Tool) (pos : list PyVal) (kw : Dict)
  (b : Backend) (tr : Trace) :
  backend_tool t = false ->
  trace (invoke DATABASE_DESCR BACKEND_URL environ t pos kw) b tr = tr.
Proof.
  intros Ht. unfold trace.
  destruct (bind_args (signature t) pos kw) as [e|args] eqn:E.
  - rewrite (invoke_rejected _ _ _ _ _ _ _ _ _ E). reflexivity.
  - pose proof (bind_params_length _ _ _ _ (bind_args_params _ _ _ _ E)) as Hlen.
    rewrite (invoke_bound _ _ _ _ _ _ _ E).
    destruct t; try discriminate Ht; simpl in Hlen; exact_length Hlen;
      try reflexivity.
    match goal with
    | |- snd (body _ _ _ QueryDocumentation [?q] _ _) = _ =>
        destruct (query_documentation_cases environ q) as [res [_ H]];
        change (snd (query_documentation environ q b tr) = tr);
        rewrite H; reflexivity
    end.
Qed.

(** X1: an invocation of any tool, with any arguments and against any
    backend, sends at most one request; a request that is sent comes from
    one of the three backend tools and goes to the configured base URL
    followed by that tool's endpoint; [get_db_info], [query_documentation]
    and [visualize] send none. *)
Theorem at_most_one_request_to_own_endpoint :
  forall (DATABASE_DESCR BACKEND_URL : string) (environ : string -> option string)
         (t : Tool) (pos : list PyVal) (kw : Dict) (b : Backend),
    let sent :=
      requests_of
        (trace (invoke DATABASE_DESCR BACKEND_URL environ t pos kw) b []) in
    (length sent <= 1)%nat /\
    (forall r, In r sent ->
               backend_tool t = true /\ req_url r = BACKEND_URL ++ endpoint t) /\
    (backend_tool t = false -> sent = []).
Proof.
  intros D U env t pos kw b sent. subst sent.
  destruct (backend_tool t) eqn:Ht.
  - destruct (bind_args (signature t) pos kw) as [e|args] eqn:E.
    + unfold trace. rewrite (invoke_rejected _ _ _ _ _ _ _ b [] E). simpl.
      repeat split; try lia; try contradiction; discriminate.
    + unfold trace. rewrite (invoke_backend_tool D U env t pos kw args b [] Ht E).
      change (snd (fetch ?r b [])) with (trace (fetch r) b []).
      rewrite fetch_requests. simpl. split; [lia|]. split; [|discriminate].
      intros r [<-|[]]. split; reflexivity.
  - rewrite (invoke_local_tool D U env t pos kw b [] Ht). simpl.
    repeat split; try lia; try contradiction.
Qed.

Lemma at_most_one_request_to_own_endpoint_witness :
  req_url (mkRequest "http://backend:5000/logs" None)
  = "http://backend:5000" ++ endpoint GetLogs /\
  requests_of
    (trace (invoke "" "http://backend:5000" (fun _ => None) Visualize
              [VStr "machine"; VStr "motor_rpm"] [])
       (fun _ => inl (RequestException "connection refused")) []) = [].
Proof.
  pose proof (at_most_one_request_to_own_endpoint "" "http://backend:5000"
                (fun _ => None) GetLogs [] []
                (fun _ => inr (mkResponse 200 "[]"))) as [_ [Hurl _]].
  pose proof (at_most_one_request_to_own_endpoint "" "http://backend:5000"
                (fun _ => None) Visualize [VStr "machine"; VStr "motor_rpm"] []
                (fun _ => inl (RequestException "connection refused")))
    as [_ [_ Hnone]].
  split.
  - exact (proj2 (Hurl (mkRequest "http://backend:5000/logs" None)
                    (or_introl eq_refl))).
  - exact (Hnone eq_refl).
Defined.

(** X3: when the request of a backend tool raises, the tool raises the
    same exception; the request was sent once, nothing was printed and
    nothing was sent again. *)
Theorem backend_failure_propagates :
  forall (DATABASE_DESCR BACKEND_URL : string) (environ : string -> option string)
         (t : Tool) (pos : list PyVal) (kw : Dict) (args : list PyVal)
         (b : Backend) (tr : Trace) (e : PyExc),
    backend_tool t = true ->
    bind_args (signature t) pos kw = inr args ->
    b (request_of_call BACKEND_URL t args) = inl e ->
    invoke DATABASE_DESCR BACKEND_URL environ t pos kw b tr
    = (Raise e, (tr ++ [EvGet (request_of_call BACKEND_URL t args)])%list).
Proof.
  intros D U env t pos kw args b tr e Ht E Hb.
  rewrite (invoke_backend_tool D U env t pos kw args b tr Ht E).
  unfold fetch. rewrite Hb. reflexivity.
Qed.

Lemma backend_failure_propagates_witness :
  invoke "" "http://backend:5000" (fun _ => None) GetLogs [] []
    (fun _ => inl (RequestException "connection refused")) [EvPrint "hello"]
  = (Raise (RequestException "connection refused"),
     [EvPrint "hello"; EvGet (mkRequest "http://backend:5000/logs" None)]).
Proof.
  exact (backend_failure_propagates "" "http://backend:5000" (fun _ => None)
           GetLogs [] [] []
           (fun _ => inl (RequestException "connection refused"))
           [EvPrint "hello"] (RequestException "connection refused")
           eq_refl eq_refl eq_refl).
Defined.

(** X4: when the backend answers the request of a backend tool, the tool
    returns the text of the response as it is, whatever the status code,
    after printing that same text once. *)
Theorem backend_text_returned_verbatim :
  forall (DATABASE_DESCR BACKEND_URL : string) (environ : string -> option string)
         (t : Tool) (pos : list PyVal) (kw : Dict) (args : list PyVal)
         (b : Backend) (tr : Trace) (resp : Response),
    backend_tool t = true ->
    bind_args (signature t) pos kw = inr args ->
    b (request_of_call BACKEND_URL t args) = inr resp ->
    invoke DATABASE_DESCR BACKEND_URL environ t pos kw b tr
    = (Ret (VStr (text resp)),
       (tr ++ [EvGet (request_of_call BACKEND_URL t args);
               EvPrint (text resp)])%list).
Proof.
  intros D U env t pos kw args b tr resp Ht E Hb.
  rewrite (invoke_backend_tool D U env t pos kw args b tr Ht E).
  unfold fetch. rewrite Hb. reflexivity.
Qed.

Lemma backend_text_returned_verbatim_witness :
  invoke "" "http://backend:5000" (fun _ => None) GetLogs [] []
    (fun _ => inr (mkResponse 500 "Internal Server Error")) []
  = (Ret (VStr "Internal Server Error"),
     [EvGet (mkRequest "http://backend:5000/logs" None);
      EvPrint "Internal Server Error"]).
Proof.
  exact (backend_text_returned_verbatim "" "http://backend:5000"
           (fun _ => None) GetLogs [] [] []
           (fun _ => inr (mkResponse 500 "Internal Server Error")) []
           (mkResponse 500 "Internal Server Error") eq_refl eq_refl eq_refl).
Defined.

(** ** The filter a telemetry tool sends *)

Lemma nodup_check (l : list string) :
  nodup string_dec l = l -> NoDup l.
Proof. intros H. rewrite <- H. apply NoDup_nodup. Qed.

(** X5: in the request of a telemetry tool every parameter travels under
    its own query key and with the value the call gave it: the positional
    argument that reaches it, else the keyword of its name, else its
    default. The two timestamps travel as [from_ts] and [to_ts]; every
    bound travels under the name of its parameter. *)
Theorem query_carries_bound_values :
  forall (DATABASE_DESCR BACKEND_URL : string) (environ : string -> option string)
         (t : Tool) (pos : list PyVal) (kw : Dict) (args : list PyVal)
         (b : Backend) (tr : Trace),
    telemetry t = true ->
    bind_args (signature t) pos kw = inr args ->
    exists r : Request,
      requests_of
        (trace (invoke DATABASE_DESCR BACKEND_URL environ t pos kw) b tr)
      = (requests_of tr ++ [r])%list /\
      forall (i : nat) (p : Param),
        nth_error (signature t) i = Some p ->
        query_value r (nth i (query_keys t) "") = bound_value p i pos kw /\
        ((2 <= i)%nat -> nth i (query_keys t) "" = p_name p).
Proof.
  intros D U env t pos kw args b tr Ht E.
  exists (mkRequest (U ++ endpoint t) (Some (combine (query_keys t) args))).
  split.
  - unfold trace. rewrite (invoke_telemetry D U env t pos kw args b tr Ht E).
    apply fetch_requests.
  - intros i p Hp.
    pose proof (bind_args_params _ _ _ _ E) as Hb.
    pose proof (proj1 (bind_params_nth _ _ _ _ i p Hb Hp)) as Hv.
    pose proof (bind_params_length _ _ _ _ Hb) as Hlen.
    destruct t; try discriminate Ht; simpl in Hlen; exact_length Hlen;
      do 14 (destruct i as [|i];
             [ simpl in Hp;
               first
                 [ discriminate Hp
                 | split;
                   [ rewrite <- Hv; reflexivity
                   | intros Hi;
                     first [ lia | injection Hp as <-; reflexivity ] ] ]
             | ]);
      simpl in Hp; destruct i; discriminate Hp.
Qed.

Lemma query_carries_bound_values_witness :
  exists r : Request,
    requests_of
      (trace (invoke "" "http://backend:5000" (fun _ => None) GetAmbient
                [VNone; VStr "2024-01-02 00:00:00"; VInt 35]
                [("max_value_zone_1_temperature", VInt 45)])
         (fun _ => inr (mkResponse 200 "[]")) [])
    = [r] /\
    query_value r "from_ts" = Some VNone /\
    query_value r "min_value_humidity" = Some (VInt 35) /\
    query_value r "max_value_humidity" = Some (VInt 100) /\
    query_value r "max_value_zone_1_temperature" = Some (VInt 45).
Proof.
  destruct (query_carries_bound_values "" "http://backend:5000" (fun _ => None)
              GetAmbient
              [VNone; VStr "2024-01-02 00:00:00"; VInt 35]
              [("max_value_zone_1_temperature", VInt 45)]
              [VNone; VStr "2024-01-02 00:00:00"; VInt 35; VInt 100;
               VInt 0; VInt 100; VInt 0; VInt 45]
              (fun _ => inr (mkResponse 200 "[]")) [] eq_refl eq_refl)
    as [r [Hr Hq]].
  exists r. split; [exact Hr|].
  split; [exact (proj1 (Hq 0%nat _ eq_refl))|].
  split; [exact (proj1 (Hq 2%nat _ eq_refl))|].
  split; [exact (proj1 (Hq 3%nat _ eq_refl))|].
  exact (proj1 (Hq 7%nat _ eq_refl)).
Defined.

(** X6: whatever a call supplies, the request of a telemetry tool carries
    one entry for each parameter of the tool, under pairwise distinct
    keys in the order of the signature: no filter is dropped (not even a
    timestamp that is [None]), none is added, and none overwrites
    another. *)
Theorem query_keys_fixed :
  forall (DATABASE_DESCR BACKEND_URL : string) (environ : string -> option string)
         (t : Tool) (pos : list PyVal) (kw : Dict) (args : list PyVal)
         (b : Backend) (tr : Trace),
    telemetry t = true ->
    bind_args (signature t) pos kw = inr args ->
    exists (r : Request) (d : Dict),
      requests_of
        (trace (invoke DATABASE_DESCR BACKEND_URL environ t pos kw) b tr)
      = (requests_of tr ++ [r])%list /\
      req_params r = Some d /\
      keys d = query_keys t /\
      map snd d = args /\
      NoDup (keys d) /\
      length d = length (signature t).
Proof.
  intros D U env t pos kw args b tr Ht E.
  exists (mkRequest (U ++ endpoint t) (Some (combine (query_keys t) args))).
  exists (combine (query_keys t) args).
  split.
  - unfold trace. rewrite (invoke_telemetry D U env t pos kw args b tr Ht E).
    apply fetch_requests.
  - pose proof (bind_params_length _ _ _ _ (bind_args_params _ _ _ _ E)) as Hlen.
    destruct t; try discriminate Ht; simpl in Hlen; exact_length Hlen;
      (split; [reflexivity|]); (split; [reflexivity|]);
      (split; [reflexivity|]);
      (split; [apply nodup_check; vm_compute; reflexivity | reflexivity]).
Qed.

Lemma query_keys_fixed_witness :
  exists (r : Request) (d : Dict),
    requests_of
      (trace (invoke "" "http://backend:5000" (fun _ => None) GetMachineData
                [VNone; VNone] [])
         (fun _ => inr (mkResponse 200 "[]")) [])
    = [r] /\
    req_params r = Some d /\
    keys d = query_keys GetMachineData /\
    length d = 14%nat.
Proof.
  destruct (query_keys_fixed "" "http://backend:5000" (fun _ => None)
              GetMachineData [VNone; VNone] []
              (VNone :: VNone :: map snd (spec_defaults GetMachineData))
              (fun _ => inr (mkResponse 200 "[]")) [] eq_refl eq_refl)
    as [r [d [Hr [Hd [Hk [_ [_ Hl]]]]]]].
  exists r, d. repeat split; assumption.
Defined.

(** ** What the agent receives from the tools that have a body *)

(** X11: whenever [get_db_info], [get_machine_data], [get_ambient] or
    [get_logs] returns, for any arguments, backend and history, what it
    returns is a string. *)
Theorem tools_with_body_return_str :
  forall (DATABASE_DESCR BACKEND_URL : string) (environ : string -> option string)
         (t : Tool) (pos : list PyVal) (kw : Dict)
         (b : Backend) (tr : Trace) (v : PyVal),
    In t [GetDbInfo; GetMachineData; GetAmbient; GetLogs] ->
    result (invoke DATABASE_DESCR BACKEND_URL environ t pos kw) b tr = Ret v ->
    exists s : string, v = VStr s.
Proof.
  intros D U env t pos kw b tr v Ht H.
  pose proof (implemented_tools_return_str D U env t pos kw b tr v Ht H) as Hs.
  destruct v; try discriminate Hs. exists s. reflexivity.
Qed.

Lemma tools_with_body_return_str_witness :
  exists s : string, VStr "[]" = VStr s.
Proof.
  exact (tools_with_body_return_str "" "http://backend:5000" (fun _ => None)
           GetMachineData [VNone; VNone] []
           (fun _ => inr (mkResponse 200 "[]")) [] (VStr "[]")
           (or_intror (or_introl eq_refl)) eq_refl).
Defined.
